(** * Wine classification API (main.py): a shallow embedding

    The program is one FastAPI module: at import time it loads the wine
    dataset, splits it, fits a random forest and keeps the fitted model in
    a module-level variable; it then serves [POST /predict] (body
    validated against the pydantic schema [WineFeatures]) and
    [GET /health].

    Python floats are IEEE-754 binary64 values, modelled by Rocq's
    primitive [float]; numpy [int64] labels and Python [int]s by [Z];
    Python [dict]s with string keys by [gmap string _].  Code of the
    libraries the module imports (scikit-learn, pydantic, numpy, FastAPI)
    is not part of the program: what the program needs of it is gathered
    in the record [libraries] and every statement below holds for every
    value of it. *)

From Stdlib Require Import ZArith Floats.PrimFloat.
From stdpp Require Import gmap strings list fin_maps pretty.

Set Warnings "-inexact-float,-register-all,-clear-no-such-hyp".
Local Open Scope Z_scope.

(** ** Python values *)

(** What [json.loads] yields for a request body, and what a handler
    returns to be serialised.  [json.loads] reads the literals [NaN],
    [Infinity] and [-Infinity] as the corresponding floats, so [JFloat]
    ranges over all of binary64. *)
Inductive json : Type :=
  | JNull
  | JBool (b : bool)
  | JInt (z : Z)
  | JFloat (f : float)
  | JStr (s : string)
  | JArr (l : list json)
  | JObj (d : gmap string json).

Abbreviation matrix := (list (list float)).

(** An instance of [Exception] raised inside the [try] block by numpy,
    scikit-learn or a dict lookup: its class name and the text [str(e)]
    gives. *)
Record exn : Type := Exn { exn_class : string; exn_str : string }.

(** [fastapi.HTTPException(status_code=..., detail=...)]. *)
Record HTTPException : Type :=
  mkHTTPException { status_code : Z; detail : string }.

(** A fitted estimator as the handler uses it: [predict] and
    [predict_proba] take a 2-d array and return one entry per row, or
    raise. *)
Record classifier : Type := Classifier {
  predict : matrix → exn + list Z;
  predict_proba : matrix → exn + matrix
}.

(** line 26-39: the request schema, thirteen required [float] fields. *)
Record WineFeatures : Type := mkWineFeatures {
  alcohol : float;
  malic_acid : float;
  ash : float;
  alcalinity_of_ash : float;
  magnesium : float;
  total_phenols : float;
  flavanoids : float;
  nonflavanoid_phenols : float;
  proanthocyanins : float;
  color_intensity : float;
  hue : float;
  od280_od315_of_diluted_wines : float;
  proline : float
}.

(** Why pydantic rejected one field. *)
Inductive field_error : Type :=
  | Missing
  | NotAFloat
  | NotADict.

(** ** What the imported libraries contribute *)

(** The state of numpy's global random generator.  A process starts with
    a state drawn from the operating system, so it differs from one start
    of the program to the next; a library call that draws from the
    generator reads the state and leaves a new one. *)
Definition rng_state : Type := Z.

Record libraries : Type := Libraries {
  (** [sklearn.datasets.load_wine(return_X_y=True)] *)
  load_wine : matrix * list Z;
  (** [train_test_split(X, y, test_size=..., random_state=...)], giving
      [(X_train, X_test, y_train, y_test)] and the generator's new state;
      [random_state] is [None] when the argument is not passed *)
  train_test_split :
    matrix → list Z → float → option Z → rng_state →
    ((matrix * matrix) * (list Z * list Z)) * rng_state;
  (** [RandomForestClassifier(n_estimators=..., random_state=...)]
      followed by [.fit(X_train, y_train)], in a given state of the
      generator *)
  RandomForestClassifier_fit :
    Z → option Z → rng_state → matrix → list Z → classifier;
  (** pydantic's conversion of an [int] to a [float] field *)
  float_of_int : Z → option float;
  (** pydantic's conversion of a [str] to a [float] field
      ([None]: the text is not a number) *)
  float_of_str : string → option float;
  (** [repr] of a numpy integer scalar, the text of a [KeyError] on it *)
  repr_label : Z → string;
  (** the [detail] FastAPI puts in the body of a 422 response *)
  validation_detail : list (string * field_error) → json
}.

(** ** Effects: the log and the calls made on the model *)

Inductive log_record : Type :=
  (** line 44: "Recibiendo prediccion para caracteristicas: {features}" *)
  | Recibiendo (features : WineFeatures)
  (** line 67: "Prediccion exitosa: {result}" *)
  | Exitosa (result : json)
  (** line 71: "Error durante la prediccion: {str(e)}" *)
  | ErrorDurante (text : string).

Inductive event : Type :=
  | LogInfo (r : log_record)
  | LogError (r : log_record)
  | CallPredict (X : matrix)
  | CallPredictProba (X : matrix).

Inductive outcome (E A : Type) : Type :=
  | Returns (a : A)
  | Raises (e : E).
Arguments Returns {E A} a.
Arguments Raises {E A} e.

(** A computation that may raise an [E] and leaves a trace of events. *)
Definition io (E A : Type) : Type := outcome E A * list event.

Global Instance io_ret {E} : MRet (io E) := λ A a, (Returns a, []).

Global Instance io_bind {E} : MBind (io E) := λ A B k m,
  match m.1 with
  | Returns a => ((k a).1, m.2 ++ (k a).2)
  | Raises e => (Raises e, m.2)
  end.

Definition raise {E A} (e : E) : io E A := (Raises e, []).

Definition emit {E} (ev : event) : io E () := (Returns (), [ev]).

(** [try: body / except Exception as e: handler e] *)
Definition try_except {E E' A} (body : io E A) (handler : E → io E' A)
    : io E' A :=
  match body.1 with
  | Returns a => (Returns a, body.2)
  | Raises e => ((handler e).1, body.2 ++ (handler e).2)
  end.

Definition logger_info {E} (r : log_record) : io E () := emit (LogInfo r).
Definition logger_error {E} (r : log_record) : io E () := emit (LogError r).

(** Calling a method of the model: the call is recorded, its exception
    propagates. *)
Definition call {A} (ev : event) (r : exn + A) : io exn A :=
  match r with
  | inl e => (Raises e, [ev])
  | inr a => (Returns a, [ev])
  end.

(** [a[0]] on a numpy array. *)
Definition index_error : exn :=
  Exn "IndexError" "index 0 is out of bounds for axis 0 with size 0".

Definition getitem0 {A} (a : list A) : io exn A :=
  match a with
  | x :: _ => mret x
  | [] => raise index_error
  end.

Section Api.
Context (lib : libraries).

(** ** Start-up (lines 19-24) *)

(** The module-level code, run once when the process starts in the
    generator state [g]. *)
Definition model (g : rng_state) : classifier :=
  let '(X, y) := load_wine lib in
  let '(((X_train, X_test), (y_train, y_test)), g') :=
    train_test_split lib X y 0.2%float (Some 42) g in
  RandomForestClassifier_fit lib 100 (Some 42) g' X_train y_train.

(** ** Request schema (lines 26-39) *)

Definition required_fields : list string :=
  [ "alcohol"; "malic_acid"; "ash"; "alcalinity_of_ash"; "magnesium";
    "total_phenols"; "flavanoids"; "nonflavanoid_phenols";
    "proanthocyanins"; "color_intensity"; "hue";
    "od280_od315_of_diluted_wines"; "proline" ]%string.

(** Modelled from the spec: pydantic's validation of one [float] field,
    which is library code (section 4.3: the value must be coercible to a
    floating-point number; section 3: no validation beyond
    type-checking).  On a parsed JSON value: floats pass unchanged, ints,
    bools and numeric strings are converted by the library, anything else
    is refused. *)
Definition float_validator (v : json) : option float :=
  match v with
  | JFloat f => Some f
  | JInt z => float_of_int lib z
  | JBool b => Some (if b then 1%float else 0%float)
  | JStr s => float_of_str lib s
  | JNull | JArr _ | JObj _ => None
  end.

Definition field_value (d : gmap string json) (name : string)
    : option float :=
  d !! name ≫= float_validator.

Definition field_errors (d : gmap string json)
    : list (string * field_error) :=
  omap (λ name,
          match d !! name with
          | None => Some (name, Missing)
          | Some v => match float_validator v with
                      | None => Some (name, NotAFloat)
                      | Some _ => None
                      end
          end) required_fields.

(** Modelled from the spec: pydantic's construction of a [WineFeatures]
    from the parsed body, which is library code (section 4.3: the payload
    has all 13 required numeric fields).  Each field of the schema is
    looked up by name and validated; fields outside the schema are never
    looked at (the schema sets no [extra] policy, and the default is to
    ignore them). *)
Definition WineFeatures_of_dict (d : gmap string json)
    : option WineFeatures :=
  a ← field_value d "alcohol";
  b ← field_value d "malic_acid";
  c ← field_value d "ash";
  e ← field_value d "alcalinity_of_ash";
  f ← field_value d "magnesium";
  g ← field_value d "total_phenols";
  h ← field_value d "flavanoids";
  i ← field_value d "nonflavanoid_phenols";
  j ← field_value d "proanthocyanins";
  k ← field_value d "color_intensity";
  l ← field_value d "hue";
  m ← field_value d "od280_od315_of_diluted_wines";
  n ← field_value d "proline";
  Some (mkWineFeatures a b c e f g h i j k l m n).

(** Modelled from the spec: the validation error of section 4.3, raised
    when the body is not an object or a field is missing or refused. *)
Definition WineFeatures_validate (body : json)
    : list (string * field_error) + WineFeatures :=
  match body with
  | JObj d =>
      match WineFeatures_of_dict d with
      | Some features => inr features
      | None => inl (field_errors d)
      end
  | _ => inl [("body"%string, NotADict)]
  end.

(** ** The prediction handler (lines 41-72) *)

(** line 47-52: [np.array([...]).reshape(1, -1)] *)
Definition feature_row (features : WineFeatures) : list float :=
  [ alcohol features; malic_acid features; ash features;
    alcalinity_of_ash features; magnesium features;
    total_phenols features; flavanoids features;
    nonflavanoid_phenols features; proanthocyanins features;
    color_intensity features; hue features;
    od280_od315_of_diluted_wines features; proline features ].

Definition reshape_1 (row : list float) : matrix := [row].

(** line 59 *)
Definition wine_types : gmap Z string :=
  {[ 0 := "Clase 0"; 1 := "Clase 1"; 2 := "Clase 2" ]}%string.

(** [wine_types[prediction]] *)
Definition wine_types_getitem (prediction : Z) : io exn string :=
  match wine_types !! prediction with
  | Some label => mret label
  | None => raise (Exn "KeyError" (repr_label lib prediction))
  end.

(** line 63: the dict comprehension over [enumerate(probabilities)] *)
Definition probabilities_dict (probabilities : list float)
    : gmap string json :=
  foldl (λ d '(i, prob), <[ "clase_" +:+ pretty i := JFloat prob ]> d)
        ∅ (zip (seq 0 (length probabilities)) probabilities).

(** lines 61-65: the dict returned on success *)
Definition result_of (prediction : Z) (probabilities : list float)
    (label : string) : json :=
  JObj {[ "prediction" := JInt prediction;
          "probabilities" := JObj (probabilities_dict probabilities);
          "message" := JStr ("Vino clasificado como: " +:+ label) ]}.

(** lines 44-68: the body of the [try].  The handler reads the
    module-level [model]; here it is the argument [mdl], which [serve]
    takes from the process. *)
Definition predict_wine_try (mdl : classifier) (features : WineFeatures)
    : io exn json :=
  logger_info (Recibiendo features);;
  let X := reshape_1 (feature_row features) in
  ys ← call (CallPredict X) (predict mdl X);
  prediction ← getitem0 ys;
  ps ← call (CallPredictProba X) (predict_proba mdl X);
  probabilities ← getitem0 ps;
  label ← wine_types_getitem prediction;
  let result := result_of prediction probabilities label in
  logger_info (Exitosa result);;
  mret result.

(** lines 70-72: the [except Exception as e] clause *)
Definition predict_wine_except (e : exn) : io HTTPException json :=
  logger_error (ErrorDurante (exn_str e));;
  raise (mkHTTPException 500 (exn_str e)).

Definition predict_wine (mdl : classifier) (features : WineFeatures)
    : io HTTPException json :=
  try_except (predict_wine_try mdl features) predict_wine_except.

(** ** The health handler (lines 74-76) *)

Definition health_check : io HTTPException json :=
  mret (JObj {[ "status" := JStr "ok" ]}).

(** ** FastAPI: routing, body validation, responses *)

Inductive request : Type :=
  | PostPredict (body : json)
  | GetHealth.

Record response : Type := Response { status : Z; content : json }.

(** Modelled from the spec: what FastAPI makes of a handler's outcome
    (section 6).  A return value is sent with status 200; an
    [HTTPException] becomes a response with its status code and the
    body [{"detail": ...}].  The encoding of the returned dict as JSON
    text is not modelled. *)
Definition respond (r : io HTTPException json) : response * list event :=
  match r.1 with
  | Returns result => (Response 200 result, r.2)
  | Raises e =>
      (Response (status_code e) (JObj {[ "detail" := JStr (detail e) ]}),
       r.2)
  end.

(** Modelled from the spec: FastAPI's routing (sections 4.3 and 6).  The
    body of [POST /predict] is validated against the type of the handler's
    parameter; a body that fails validation is answered with 422 and the
    handler is not called. *)
Definition app (mdl : classifier) (req : request)
    : response * list event :=
  match req with
  | PostPredict body =>
      match WineFeatures_validate body with
      | inl errors =>
          (Response 422
             (JObj {[ "detail" := validation_detail lib errors ]}), [])
      | inr features => respond (predict_wine mdl features)
      end
  | GetHealth => respond health_check
  end.

(** ** The process *)

(** The module-level model and everything the process has done. *)
Record process : Type := Process {
  held_model : classifier;
  trace : list event
}.

Definition startup (g : rng_state) : process := Process (model g) [].

Definition serve (p : process) (req : request) : response * process :=
  let r := app (held_model p) req in
  (r.1, Process (held_model p) (trace p ++ r.2)).

Definition run (p : process) (reqs : list request) : process :=
  foldl (λ q req, (serve q req).2) p reqs.

End Api.


(** ** Reading a response *)

(** [obj[key]] on a JSON object. *)
Definition json_get (j : json) (key : string) : option json :=
  match j with
  | JObj d => d !! key
  | _ => None
  end.

(** [sub in text] on Python strings. *)
Definition mentions (text sub : string) : Prop :=
  ∃ before after, text = before +:+ sub +:+ after.

(** A probability: [0 <= p <= 1] (false on NaN). *)
Definition in_unit (p : float) : bool :=
  PrimFloat.leb 0%float p && PrimFloat.leb p 1%float.

(** [abs(sum(ps) - 1) <= 1e-6], with Python's left-to-right [sum]. *)
Definition sums_to_one (ps : list float) : bool :=
  PrimFloat.leb
    (PrimFloat.abs (PrimFloat.sub (foldl PrimFloat.add 0%float ps) 1%float))
    1e-6%float.

(** Modelled from the spec: the trained model, which is scikit-learn
    code (section 3: it maps a feature vector to one of the labels 0, 1,
    2 plus a probability per class, the probabilities non-negative and
    summing to 1).  [classifies mdl X k ps]: on the one-row input [X] the
    model answers the label [k] and the probabilities [ps] as that
    contract says. *)
Definition classifies (mdl : classifier) (X : matrix)
    (k : Z) (ps : list float) : Prop :=
  predict mdl X = inr [k] ∧ predict_proba mdl X = inr [ps] ∧
  k ∈ [0; 1; 2] ∧ length ps = 3%nat ∧
  Forall (λ p, in_unit p = true) ps ∧ sums_to_one ps = true.

Definition is_model_call (ev : event) : bool :=
  match ev with
  | CallPredict _ | CallPredictProba _ => true
  | LogInfo _ | LogError _ => false
  end.

(** Two fitted models that answer every input alike. *)
Definition same_answers (m m' : classifier) : Prop :=
  ∀ X, predict m X = predict m' X ∧ predict_proba m X = predict_proba m' X.

(** Modelled from the spec: the reproducibility of scikit-learn, which is
    library code (section 8: same seed, same fitted model).  A call that
    is given an integer [random_state] does not draw from the global
    generator: the split it makes, and the answers of the model it fits,
    are the same in every state of the generator.  Nothing is said of a
    call without a seed. *)
Definition seeded (lib : libraries) : Prop :=
  (∀ X y size seed g g',
     (train_test_split lib X y size (Some seed) g).1 =
     (train_test_split lib X y size (Some seed) g').1) ∧
  (∀ n seed g g' X y,
     same_answers (RandomForestClassifier_fit lib n (Some seed) g X y)
                  (RandomForestClassifier_fit lib n (Some seed) g' X y)).

(** [f"clase_{i}"], the key of class [i] in the [probabilities] dict. *)
Definition class_key (i : nat) : string := "clase_" +:+ pretty i.

(** [obj.keys()] on a JSON object. *)
Definition json_keys (j : json) : gset string :=
  match j with
  | JObj d => dom d
  | _ => ∅
  end.

(** The calls on the model in a trace, and its log records, in order. *)
Definition model_calls (tr : list event) : list event :=
  filter (λ ev, is_model_call ev = true) tr.

Definition log_records (tr : list event) : list event :=
  filter (λ ev, is_model_call ev = false) tr.

(** ** Concrete libraries and requests, to run the embedding on *)

Module Fixture.

(** The largest finite value of numpy's [float32], the type a forest
    converts its input to. *)
Definition float32_max : float := 3.4028234663852886e38.

Definition refuses (X : matrix) : bool :=
  existsb (existsb (λ x, negb (PrimFloat.leb (PrimFloat.abs x) float32_max)))
          X.

Definition stump_label (row : list float) : Z :=
  if PrimFloat.leb 755%float (default 0%float (row !! 12%nat)) then 0
  else if PrimFloat.leb 1.58%float (default 0%float (row !! 6%nat)) then 1
  else 2.

Definition stump_proba (row : list float) : list float :=
  match stump_label row with
  | 0 => [0.97; 0.03; 0]%float
  | 1 => [0.05; 0.9; 0.05]%float
  | _ => [0; 0.02; 0.98]%float
  end.

Definition not_finite : exn :=
  Exn "ValueError"
      "Input contains NaN, infinity or a value too large for dtype('float32').".

(** A decision stump that, like a forest's check of its input, raises on
    an entry that is NaN, infinite or beyond the range of [float32]. *)
Definition stump : classifier :=
  Classifier
    (λ X, if refuses X then inl not_finite else inr (stump_label <$> X))
    (λ X, if refuses X then inl not_finite else inr (stump_proba <$> X)).

(** A model whose label is outside the keys of [wine_types]. *)
Definition rogue : classifier :=
  Classifier (λ X, inr ((λ _, 7) <$> X)) (predict_proba stump).

Fixpoint float_of_positive (p : positive) : float :=
  match p with
  | xH => 1%float
  | xO q => PrimFloat.mul 2%float (float_of_positive q)
  | xI q => PrimFloat.add (PrimFloat.mul 2%float (float_of_positive q)) 1%float
  end.

Definition float_of_Z (z : Z) : option float :=
  Some match z with
       | Z0 => 0%float
       | Zpos p => float_of_positive p
       | Zneg p => PrimFloat.opp (float_of_positive p)
       end.

Definition float_of_text (s : string) : option float :=
  if decide (s = "14.23") then Some 14.23%float
  else if decide (s = "nan") then Some PrimFloat.nan
  else None.

Definition detail_of (errors : list (string * field_error)) : json :=
  JArr ((λ e, JArr [JStr "body"; JStr e.1]) <$> errors).

Definition libs (mdl : classifier) : libraries :=
  Libraries ([], []) (λ X y _ _ g, (((X, []), (y, [])), g))
            (λ _ _ _ _ _, mdl)
            float_of_Z float_of_text pretty detail_of.

(** The first sample of the wine dataset (class 0). *)
Definition sample : gmap string json :=
  {[ "alcohol" := JStr "14.23"; "malic_acid" := JFloat 1.71;
     "ash" := JFloat 2.43; "alcalinity_of_ash" := JFloat 15.6;
     "magnesium" := JInt 127; "total_phenols" := JFloat 2.8;
     "flavanoids" := JFloat 3.06; "nonflavanoid_phenols" := JFloat 0.28;
     "proanthocyanins" := JFloat 2.29; "color_intensity" := JFloat 5.64;
     "hue" := JFloat 1.04;
     "od280_od315_of_diluted_wines" := JFloat 3.92;
     "proline" := JInt 1065 ]}.

Definition sample_features : WineFeatures :=
  mkWineFeatures 14.23 1.71 2.43 15.6 127 2.8 3.06 0.28 2.29 5.64 1.04 3.92
                 1065.

(** The sample with [hue] replaced by NaN, and what validation makes of
    it. *)
Definition hue_nan : gmap string json :=
  <[ "hue" := JFloat PrimFloat.nan ]> sample.

Definition hue_nan_features : WineFeatures :=
  mkWineFeatures 14.23 1.71 2.43 15.6 127 2.8 3.06 0.28 2.29 5.64
                 PrimFloat.nan 3.92 1065.

(** The sample with [proline] replaced by a number beyond [float32]. *)
Definition huge : gmap string json :=
  <[ "proline" := JFloat 1e300 ]> sample.

Definition huge_features : WineFeatures :=
  mkWineFeatures 14.23 1.71 2.43 15.6 127 2.8 3.06 0.28 2.29 5.64 1.04 3.92
                 1e300.

(** The sample with a field the schema does not know. *)
Definition with_vintage : gmap string json :=
  <[ "vintage" := JInt 2019 ]> sample.

(** The response to the sample when the stump is the model. *)
Definition sample_result : json :=
  JObj {[ "prediction" := JInt 0;
          "probabilities" :=
            JObj {[ "clase_0" := JFloat 0.97; "clase_1" := JFloat 0.03;
                    "clase_2" := JFloat 0 ]};
          "message" := JStr "Vino clasificado como: Clase 0" ]}.

(** Libraries whose unseeded calls depend on the generator: without a
    seed the split keeps or drops the first sample and the fitted model
    is the stump or the rogue, by the parity of the state; with a seed
    the state is neither read nor changed. *)
Definition random_split (X : matrix) (y : list Z) (size : float)
    (random_state : option Z) (g : rng_state)
    : ((matrix * matrix) * (list Z * list Z)) * rng_state :=
  match random_state with
  | Some _ => (((X, []), (y, [])), g)
  | None => if Z.even g then (((X, []), (y, [])), g + 1)
            else (((tail X, take 1 X), (tail y, take 1 y)), g + 1)
  end.

Definition random_fit (n : Z) (random_state : option Z) (g : rng_state)
    (X : matrix) (y : list Z) : classifier :=
  match random_state with
  | Some _ => stump
  | None => if Z.even g then stump else rogue
  end.

Definition random_libs : libraries :=
  Libraries ([], []) random_split random_fit
            float_of_Z float_of_text pretty detail_of.

(** A model whose [predict] returns an empty array. *)
Definition mute : classifier :=
  Classifier (λ _, inr []) (predict_proba stump).

(** A model fitted on two classes only: two probabilities per row, and
    more rows in its answers than it was asked. *)
Definition two_class : classifier :=
  Classifier (λ _, inr [1; 0]) (λ _, inr [[0.25; 0.75]; [1; 0]]%float).

Definition two_class_result : json :=
  JObj {[ "prediction" := JInt 1;
          "probabilities" :=
            JObj {[ "clase_0" := JFloat 0.25; "clase_1" := JFloat 0.75 ]};
          "message" := JStr "Vino clasificado como: Clase 1" ]}.

End Fixture.

(** * Properties *)

(** ** The [io] monad *)

Lemma io_bind_returns {E A B} (m : io E A) (k : A → io E B) a :
  m.1 = Returns a → m ≫= k = ((k a).1, m.2 ++ (k a).2).
Proof. intros H. unfold mbind, io_bind. by rewrite H. Qed.

Lemma io_bind_raises {E A B} (m : io E A) (k : A → io E B) e :
  m.1 = Raises e → m ≫= k = (Raises e, m.2).
Proof. intros H. unfold mbind, io_bind. by rewrite H. Qed.

Lemma try_except_returns {E E' A} (body : io E A) (h : E → io E' A) a :
  body.1 = Returns a → try_except body h = (Returns a, body.2).
Proof. intros H. unfold try_except. by rewrite H. Qed.

Lemma try_except_raises {E E' A} (body : io E A) (h : E → io E' A) e :
  body.1 = Raises e →
  try_except body h = ((h e).1, body.2 ++ (h e).2).
Proof. intros H. unfold try_except. by rewrite H. Qed.

Lemma model_calls_none (logs : list event) :
  Forall (λ ev, is_model_call ev = false) logs →
  filter (λ ev, is_model_call ev = true) logs = [].
Proof.
  induction 1 as [|ev logs Hev _ IH]; [done|].
  rewrite filter_cons_False, IH; [done|]. by rewrite Hev.
Qed.

Section Properties.
Context (lib : libraries).

(** ** Validation *)

Lemma field_value_None d name :
  field_value lib d name = None ↔
  d !! name = None ∨ ∃ v, d !! name = Some v ∧ float_validator lib v = None.
Proof.
  unfold field_value. destruct (d !! name) as [v|]; simpl.
  - split; [ intros H; right; eauto | intros [?|(w & [= <-] & ?)]; done ].
  - split; [ by left | done ].
Qed.

Lemma WineFeatures_of_dict_Some d features :
  WineFeatures_of_dict lib d = Some features →
  field_value lib d <$> required_fields = Some <$> feature_row features.
Proof.
  unfold WineFeatures_of_dict. intros H.
  repeat match type of H with
         | context [field_value lib d ?n] =>
             destruct (field_value lib d n) eqn:?; simpl in H; [|done]
         end.
  injection H as <-. simpl. by repeat f_equal.
Qed.

Lemma WineFeatures_of_dict_None d name :
  name ∈ required_fields → field_value lib d name = None →
  WineFeatures_of_dict lib d = None.
Proof.
  unfold required_fields. intros Hin Hnone.
  repeat (apply elem_of_cons in Hin as [->|Hin];
          [ unfold WineFeatures_of_dict;
            repeat match goal with
                   | |- context [field_value lib d ?n] =>
                       destruct (field_value lib d n); simpl; try done
                   end
          | ]).
  by apply elem_of_nil in Hin.
Qed.

Lemma WineFeatures_of_dict_ext d d' :
  (∀ name, name ∈ required_fields → d' !! name = d !! name) →
  WineFeatures_of_dict lib d' = WineFeatures_of_dict lib d.
Proof.
  intros H. unfold WineFeatures_of_dict, field_value.
  rewrite !H; [done | unfold required_fields; set_solver ..].
Qed.

(** ** The handler, case by case *)

Lemma predict_wine_try_cases mdl features :
  let X := [feature_row features] in
  let received := LogInfo (Recibiendo features) in
  predict_wine_try lib mdl features =
  match predict mdl X with
  | inl e => (Raises e, [received; CallPredict X])
  | inr [] => (Raises index_error, [received; CallPredict X])
  | inr (k :: _) =>
      match predict_proba mdl X with
      | inl e => (Raises e, [received; CallPredict X; CallPredictProba X])
      | inr [] =>
          (Raises index_error,
           [received; CallPredict X; CallPredictProba X])
      | inr (ps :: _) =>
          match wine_types !! k with
          | None =>
              (Raises (Exn "KeyError" (repr_label lib k)),
               [received; CallPredict X; CallPredictProba X])
          | Some label =>
              (Returns (result_of k ps label),
               [received; CallPredict X; CallPredictProba X;
                LogInfo (Exitosa (result_of k ps label))])
          end
      end
  end.
Proof.
  intros X received. unfold predict_wine_try, reshape_1. fold X.
  destruct (predict mdl X) as [e|[|k ys]]; [done..|].
  destruct (predict_proba mdl X) as [e|[|ps pss]]; [done..|].
  unfold wine_types_getitem, mbind, io_bind.
  cbn -[wine_types lookup result_of].
  destruct (wine_types !! k) as [label|]; done.
Qed.

Lemma predict_wine_try_trace mdl features :
  ∃ rest, (predict_wine_try lib mdl features).2 =
          LogInfo (Recibiendo features)
          :: CallPredict [feature_row features] :: rest ∧
          (rest = [] ∨
           ∃ logs, rest = CallPredictProba [feature_row features] :: logs ∧
                   Forall (λ ev, is_model_call ev = false) logs).
Proof.
  rewrite predict_wine_try_cases.
  destruct (predict mdl _) as [e|[|k ys]]; [eauto..|].
  destruct (predict_proba mdl _) as [e|[|ps pss]];
    [eexists; split; [done|right; eauto]..|].
  destruct (wine_types !! k);
    (eexists; split; [done|right; eexists; split; [done|]]);
    repeat constructor.
Qed.

Lemma wine_types_lookup k :
  wine_types !! k =
  if decide (k ∈ [0; 1; 2]) then Some ("Clase " +:+ pretty k) else None.
Proof.
  unfold wine_types.
  destruct (decide (k = 0)) as [->|]; [done|].
  destruct (decide (k = 1)) as [->|]; [done|].
  destruct (decide (k = 2)) as [->|]; [done|].
  rewrite !lookup_insert_ne, lookup_singleton_ne by done.
  case_decide as Hin; [|done].
  rewrite !elem_of_cons, elem_of_nil in Hin.
  by destruct Hin as [->|[->|[->|[]]]].
Qed.

Lemma probabilities_dict_3 p0 p1 p2 :
  probabilities_dict [p0; p1; p2] =
  {[ "clase_0" := JFloat p0; "clase_1" := JFloat p1;
     "clase_2" := JFloat p2 ]}.
Proof. reflexivity. Qed.

Lemma respond_predict_wine mdl features :
  respond (predict_wine lib mdl features) =
  match (predict_wine_try lib mdl features).1 with
  | Returns result =>
      (Response 200 result, (predict_wine_try lib mdl features).2)
  | Raises e =>
      (Response 500 (JObj {[ "detail" := JStr (exn_str e) ]}),
       (predict_wine_try lib mdl features).2
       ++ [LogError (ErrorDurante (exn_str e))])
  end.
Proof.
  unfold predict_wine, try_except, respond.
  by destruct (predict_wine_try lib mdl features).1.
Qed.

(** ** The claims *)

(** C1 (amended): for a body that passes validation and on whose row the
    held model answers, rather than raises, with a label [k] among 0, 1,
    2 and one probability per class (each in [0,1], summing to 1 within
    1e-6), [POST /predict] answers 200 with the result whose
    [prediction] is [k], whose [probabilities] dict has exactly the three
    entries clase_0, clase_1, clase_2 holding the three probabilities the
    model returned, in that order, and whose [message] is the label of
    [k]. *)
Theorem predict_returns_label_and_probabilities mdl body features k ps :
  WineFeatures_validate lib body = inr features →
  classifies mdl [feature_row features] k ps →
  ∃ p0 p1 p2,
    ps = [p0; p1; p2] ∧
    (app lib mdl (PostPredict body)).1 =
      Response 200
        (JObj {[ "prediction" := JInt k;
                 "probabilities" :=
                   JObj {[ "clase_0" := JFloat p0; "clase_1" := JFloat p1;
                           "clase_2" := JFloat p2 ]};
                 "message" :=
                   JStr ("Vino clasificado como: Clase " +:+ pretty k) ]}) ∧
    k ∈ [0; 1; 2] ∧
    in_unit p0 = true ∧ in_unit p1 = true ∧ in_unit p2 = true ∧
    sums_to_one [p0; p1; p2] = true.
Proof.
  intros Hvalid (Hk & Hps & Hin & Hlen & Hunit & Hsum).
  destruct ps as [|p0 [|p1 [|p2 [|]]]]; try done.
  apply Forall_cons in Hunit as [H0 Hunit].
  apply Forall_cons in Hunit as [H1 Hunit].
  apply Forall_cons in Hunit as [H2 _].
  exists p0, p1, p2. split; [done|]. split; [|done].
  unfold app. rewrite Hvalid, respond_predict_wine, predict_wine_try_cases.
  rewrite Hk, Hps, wine_types_lookup, decide_True by done.
  reflexivity.
Qed.

(** C2: a body in which a required field is absent, or holds a value the
    float validator refuses, is answered 422 without any event: the
    handler has not started (no log record) and the model has not been
    called. *)
Theorem invalid_body_is_rejected_before_handler mdl body name :
  name ∈ required_fields →
  (json_get body name = None ∨
   ∃ v, json_get body name = Some v ∧ float_validator lib v = None) →
  ∃ errors,
    WineFeatures_validate lib body = inl errors ∧
    app lib mdl (PostPredict body) =
      (Response 422 (JObj {[ "detail" := validation_detail lib errors ]}),
       []).
Proof.
  intros Hname Hbad.
  assert (∃ errors, WineFeatures_validate lib body = inl errors)
    as [errors Herr].
  { destruct body; simpl in *; eauto.
    rewrite (WineFeatures_of_dict_None d name) by
      (done || by apply field_value_None).
    eauto. }
  exists errors. split; [done|]. unfold app. by rewrite Herr.
Qed.

(** C3: when the body of the [try] raises [e], the handler does nothing
    more than log the error, and the response is 500 with the body
    [{"detail": str(e)}] and nothing else; no call on the model is
    repeated. *)
Theorem exception_becomes_500 mdl body features e :
  WineFeatures_validate lib body = inr features →
  (predict_wine_try lib mdl features).1 = Raises e →
  app lib mdl (PostPredict body) =
    (Response 500 (JObj {[ "detail" := JStr (exn_str e) ]}),
     (predict_wine_try lib mdl features).2
     ++ [LogError (ErrorDurante (exn_str e))]) ∧
  predict_wine lib mdl features =
    (Raises (mkHTTPException 500 (exn_str e)),
     (predict_wine_try lib mdl features).2
     ++ [LogError (ErrorDurante (exn_str e))]) ∧
  NoDup (filter (λ ev, is_model_call ev = true)
                (app lib mdl (PostPredict body)).2).
Proof.
  intros Hvalid Hraise.
  assert (app lib mdl (PostPredict body) =
    (Response 500 (JObj {[ "detail" := JStr (exn_str e) ]}),
     (predict_wine_try lib mdl features).2
     ++ [LogError (ErrorDurante (exn_str e))])) as Happ.
  { unfold app. by rewrite Hvalid, respond_predict_wine, Hraise. }
  split; [done|]. split.
  { unfold predict_wine. by rewrite (try_except_raises _ _ e). }
  rewrite Happ. cbn [snd].
  destruct (predict_wine_try_trace mdl features) as (rest & -> & Hrest).
  destruct Hrest as [->|(logs & -> & Hlogs)].
  - cbn. repeat constructor; set_solver.
  - rewrite <- !app_comm_cons, !filter_cons. simpl.
    assert (filter (λ ev, is_model_call ev = true)
              (logs ++ [LogError (ErrorDurante (exn_str e))]) = [])
      as ->.
    { rewrite filter_app. by rewrite model_calls_none. }
    repeat constructor; set_solver.
Qed.

(** C4: for a body that passes validation, the row handed to the model is
    the thirteen validated values in the order alcohol, malic_acid, ash,
    alcalinity_of_ash, magnesium, total_phenols, flavanoids,
    nonflavanoid_phenols, proanthocyanins, color_intensity, hue,
    od280_od315_of_diluted_wines, proline; [predict] is called on it
    first, every call on the model is made on it, and [predict_proba] is
    called on it as soon as [predict] has returned a label. *)
Theorem model_input_is_in_training_order mdl d features :
  WineFeatures_validate lib (JObj d) = inr features →
  let X := [feature_row features] in
  let tr := (app lib mdl (PostPredict (JObj d))).2 in
  required_fields =
    [ "alcohol"; "malic_acid"; "ash"; "alcalinity_of_ash"; "magnesium";
      "total_phenols"; "flavanoids"; "nonflavanoid_phenols";
      "proanthocyanins"; "color_intensity"; "hue";
      "od280_od315_of_diluted_wines"; "proline" ] ∧
  field_value lib d <$> required_fields = Some <$> feature_row features ∧
  (∃ rest, tr = LogInfo (Recibiendo features) :: CallPredict X :: rest) ∧
  (∀ X', CallPredict X' ∈ tr ∨ CallPredictProba X' ∈ tr → X' = X) ∧
  (∀ k ks, predict mdl X = inr (k :: ks) →
     ∃ rest, tr = LogInfo (Recibiendo features) :: CallPredict X
                  :: CallPredictProba X :: rest).
Proof.
  intros Hvalid X tr. split; [done|]. split.
  { simpl in Hvalid. destruct (WineFeatures_of_dict lib d) eqn:Hd; [|done].
    injection Hvalid as ->. by apply WineFeatures_of_dict_Some. }
  assert (tr = (predict_wine_try lib mdl features).2
               ++ match (predict_wine_try lib mdl features).1 with
                  | Returns _ => []
                  | Raises e => [LogError (ErrorDurante (exn_str e))]
                  end) as Htr.
  { unfold tr, app. rewrite Hvalid, respond_predict_wine.
    destruct (predict_wine_try lib mdl features).1; simpl;
      by rewrite ?app_nil_r. }
  assert (∀ ev, ev ∈ match (predict_wine_try lib mdl features).1 with
                     | Returns _ => []
                     | Raises e => [LogError (ErrorDurante (exn_str e))]
                     end → is_model_call ev = false) as Htail.
  { destruct (predict_wine_try lib mdl features).1; set_solver. }
  pose proof (predict_wine_try_cases mdl features) as Hcases.
  simpl in Hcases. fold X in Hcases.
  destruct (predict_wine_try_trace mdl features) as (rest & Hrest & Hshape).
  fold X in Hrest, Hshape. rewrite Hrest in Htr.
  split; [rewrite Htr; eauto|]. split.
  - intros X' HX'. rewrite Htr in HX'.
    assert (∀ ev, ev ∈ tr → is_model_call ev = true →
                  ev = CallPredict X ∨ ev = CallPredictProba X) as Hcalls.
    { intros ev. rewrite Htr, <- !app_comm_cons, !elem_of_cons, elem_of_app.
      intros [->|[->|[Hev|Hev]]] Hcall; [done|by left| |].
      - destruct Hshape as [->|(logs & -> & Hlogs)]; [set_solver|].
        apply elem_of_cons in Hev as [->|Hev]; [by right|].
        rewrite Forall_forall in Hlogs. apply Hlogs in Hev. congruence.
      - apply Htail in Hev. congruence. }
    rewrite <- Htr in HX'.
    destruct HX' as [HX'|HX']; apply Hcalls in HX'; naive_solver.
  - intros k ks Hk. rewrite Hk in Hcases. rewrite Htr.
    destruct Hshape as [->|(logs & -> & _)]; [|eauto].
    rewrite Hcases in Hrest.
    destruct (predict_proba mdl X) as [?|[|??]]; [done..|].
    by destruct (wine_types !! k).
Qed.

Lemma run_held_model p reqs :
  held_model (run lib p reqs) = held_model p.
Proof.
  revert p. induction reqs as [|req reqs IH]; intros p; [done|].
  simpl. by rewrite IH.
Qed.

Lemma app_same_answers mdl mdl' req :
  same_answers mdl mdl' → app lib mdl req = app lib mdl' req.
Proof.
  intros Hsame. destruct req as [body|]; [|done]. unfold app.
  destruct (WineFeatures_validate lib body) as [errors|features]; [done|].
  rewrite !respond_predict_wine, !predict_wine_try_cases. cbn zeta.
  by destruct (Hsame [feature_row features]) as [-> ->].
Qed.

Lemma model_seeded g g' :
  seeded lib → same_answers (model lib g) (model lib g').
Proof.
  intros [Hsplit Hfit]. unfold model.
  destruct (load_wine lib) as [X y].
  pose proof (Hsplit X y 0.2%float 42 g g') as Heq.
  destruct (train_test_split lib X y 0.2%float (Some 42) g)
    as [[[X_train X_test] [y_train y_test]] g1].
  destruct (train_test_split lib X y 0.2%float (Some 42) g')
    as [[[X_train' X_test'] [y_train' y_test']] g1'].
  simpl in Heq. injection Heq as <- _ <- _. apply Hfit.
Qed.

(** C5: the start-up code passes [random_state=42] to the split and to
    the forest, its only calls that could draw from the random generator,
    and no request changes the model the process holds.  So when a seeded
    call of the library is reproducible, two processes started in any two
    states of the generator, whatever requests each has served before,
    answer the same body with the same response. *)
Theorem same_seed_same_answer (g g' : rng_state)
    (served served' : list request) body :
  seeded lib →
  (serve lib (run lib (startup lib g) served) (PostPredict body)).1 =
  (serve lib (run lib (startup lib g') served') (PostPredict body)).1.
Proof.
  intros Hseeded. unfold serve. cbn [fst].
  rewrite !run_held_model. unfold startup. cbn [held_model].
  by rewrite (app_same_answers _ _ _ (model_seeded g g' Hseeded)).
Qed.

Lemma predict_wine_try_returns_label mdl features result :
  (predict_wine_try lib mdl features).1 = Returns result →
  ∃ k ks ps,
    predict mdl [feature_row features] = inr (k :: ks) ∧
    k ∈ [0; 1; 2] ∧
    result = result_of k ps ("Clase " +:+ pretty k).
Proof.
  rewrite predict_wine_try_cases. cbn zeta.
  destruct (predict mdl _) as [?|[|k ks]]; [done..|].
  destruct (predict_proba mdl _) as [?|[|ps ?]]; [done..|].
  rewrite wine_types_lookup. case_decide; [|done].
  intros [= <-]. by exists k, ks, ps.
Qed.

Lemma predict_wine_try_returns mdl features result :
  (predict_wine_try lib mdl features).1 = Returns result →
  ∃ k ps label, wine_types !! k = Some label ∧ result = result_of k ps label.
Proof.
  rewrite predict_wine_try_cases.
  destruct (predict mdl _) as [?|[|k ?]]; [done..|].
  destruct (predict_proba mdl _) as [?|[|ps ?]]; [done..|].
  destruct (wine_types !! k) as [label|] eqn:Hk; [|done].
  intros [= <-]. eauto.
Qed.

(** C6: a 200 response to [POST /predict] answers a valid body; its
    [prediction] is the first label [k] that [predict] returned on the
    row of that body, [k] is a key of [wine_types], and its [message] is
    "Vino clasificado como: " followed by the label of [k], which is
    "Clase " followed by [k]; when [k] is 0 the message is
    "Vino clasificado como: Clase 0", which contains "Clase 0". *)
Theorem message_names_predicted_class mdl body :
  status (app lib mdl (PostPredict body)).1 = 200 →
  ∃ features k ks label message,
    WineFeatures_validate lib body = inr features ∧
    predict mdl [feature_row features] = inr (k :: ks) ∧
    json_get (content (app lib mdl (PostPredict body)).1) "prediction"
      = Some (JInt k) ∧
    json_get (content (app lib mdl (PostPredict body)).1) "message"
      = Some (JStr message) ∧
    wine_types !! k = Some label ∧
    label = "Clase " +:+ pretty k ∧
    message = "Vino clasificado como: " +:+ label ∧
    (k = 0 → message = "Vino clasificado como: Clase 0" ∧
             mentions message "Clase 0").
Proof.
  unfold app.
  destruct (WineFeatures_validate lib body) as [?|features] eqn:Hvalid;
    [done|].
  rewrite respond_predict_wine.
  destruct (predict_wine_try lib mdl features).1 as [result|e] eqn:Htry;
    [|done].
  intros _.
  apply predict_wine_try_returns_label in Htry as (k & ks & ps & Hk & Hin & ->).
  exists features, k, ks, ("Clase " +:+ pretty k),
         ("Vino clasificado como: " +:+ "Clase " +:+ pretty k).
  split; [done|]. split; [done|]. split; [done|]. split; [done|].
  split; [by rewrite wine_types_lookup, decide_True|].
  split; [done|]. split; [done|].
  intros ->. split; [done|]. by exists "Vino clasificado como: ", "".
Qed.

(** C7: [GET /health] is answered 200 with [{"status": "ok"}] whatever
    the model held by the process and whatever it has done so far; the
    handler makes no call on the model, writes no log record and leaves
    the process as it was. *)
Theorem health_is_constant (p : process) :
  serve lib p GetHealth =
    (Response 200 (JObj {[ "status" := JStr "ok" ]}), p) ∧
  ∀ mdl, app lib mdl GetHealth =
           (Response 200 (JObj {[ "status" := JStr "ok" ]}), []).
Proof.
  split; [|done]. destruct p as [mdl tr]. unfold serve. simpl.
  by rewrite app_nil_r.
Qed.

(** C8: [wine_types] has exactly the keys 0, 1, 2; still, for a body that
    passes validation and any behaviour of the model, the handler either
    returns a result (sent with 200) or raises [HTTPException] with
    status 500; when the model gives a label that is not a key of
    [wine_types], the [KeyError] of the lookup is caught and the response
    is 500 with the text of that error. *)
Theorem handler_is_total mdl body features :
  WineFeatures_validate lib body = inr features →
  (∀ k, is_Some (wine_types !! k) ↔ k ∈ [0; 1; 2]) ∧
  ((∃ result,
      (predict_wine lib mdl features).1 = Returns result ∧
      (app lib mdl (PostPredict body)).1 = Response 200 result) ∨
   (∃ text,
      (predict_wine lib mdl features).1
        = Raises (mkHTTPException 500 text) ∧
      (app lib mdl (PostPredict body)).1
        = Response 500 (JObj {[ "detail" := JStr text ]}))) ∧
  (∀ k ks ps pss,
     predict mdl [feature_row features] = inr (k :: ks) →
     predict_proba mdl [feature_row features] = inr (ps :: pss) →
     k ∉ [0; 1; 2] →
     (predict_wine_try lib mdl features).1
       = Raises (Exn "KeyError" (repr_label lib k)) ∧
     (app lib mdl (PostPredict body)).1
       = Response 500 (JObj {[ "detail" := JStr (repr_label lib k) ]})).
Proof.
  intros Hvalid. split; [|split].
  - intros k. rewrite wine_types_lookup. case_decide; [|split; [|done]].
    + split; [done|eauto].
    + by intros [? ?].
  - unfold app. rewrite Hvalid. unfold respond, predict_wine, try_except.
    destruct (predict_wine_try lib mdl features).1; simpl; eauto.
  - intros k ks ps pss Hk Hps Hnot.
    assert ((predict_wine_try lib mdl features).1
            = Raises (Exn "KeyError" (repr_label lib k))) as Htry.
    { rewrite predict_wine_try_cases, Hk, Hps, wine_types_lookup.
      by rewrite decide_False. }
    split; [done|]. unfold app.
    by rewrite Hvalid, respond_predict_wine, Htry.
Qed.

(** C9: a body that extends a valid one with further fields is valid too,
    with the same validated features, and is answered exactly as the
    valid one is: same response, same calls on the model, same log
    records. *)
Theorem extra_fields_are_ignored mdl (d d' : gmap string json) features :
  WineFeatures_validate lib (JObj d) = inr features →
  d ⊆ d' →
  WineFeatures_validate lib (JObj d') = inr features ∧
  app lib mdl (PostPredict (JObj d')) = app lib mdl (PostPredict (JObj d)).
Proof.
  intros Hvalid Hsub.
  assert (WineFeatures_of_dict lib d' = WineFeatures_of_dict lib d) as Heq.
  { apply WineFeatures_of_dict_ext. intros name Hname.
    simpl in Hvalid.
    destruct (WineFeatures_of_dict lib d) eqn:Hd; [|done].
    destruct (d !! name) as [v|] eqn:Hv.
    - by eapply lookup_weaken.
    - rewrite (WineFeatures_of_dict_None d name) in Hd; [done..|].
      apply field_value_None. by left. }
  assert (WineFeatures_validate lib (JObj d') = inr features) as Hvalid'.
  { simpl in *. rewrite Heq.
    by destruct (WineFeatures_of_dict lib d). }
  split; [done|]. unfold app. by rewrite Hvalid, Hvalid'.
Qed.

Lemma WineFeatures_of_dict_None_inv d :
  WineFeatures_of_dict lib d = None →
  ∃ name, name ∈ required_fields ∧ field_value lib d name = None.
Proof.
  unfold WineFeatures_of_dict. intros H.
  repeat match type of H with
         | context [field_value lib d ?n] =>
             destruct (field_value lib d n) eqn:?; simpl in H;
             [| exists n; split; [unfold required_fields; set_solver|done]]
         end.
  done.
Qed.

Lemma field_value_insert d name name' v :
  field_value lib (<[name := JFloat v]> d) name' =
  if decide (name = name') then Some v else field_value lib d name'.
Proof.
  unfold field_value. rewrite lookup_insert. by case_decide.
Qed.

(** C10: replacing any required field of a valid body by a float that is
    not finite (NaN, +infinity or -infinity) leaves the body valid: the
    value is taken as it is, it is part of the row on which [predict] is
    called, the response is never 422, and if computing the prediction
    then raises, the response is 500 with the text of the exception. *)
Theorem non_finite_value_reaches_model mdl d features name v :
  WineFeatures_validate lib (JObj d) = inr features →
  name ∈ required_fields →
  is_finite v = false →
  ∃ features',
    WineFeatures_validate lib (JObj (<[name := JFloat v]> d))
      = inr features' ∧
    field_value lib (<[name := JFloat v]> d) name = Some v ∧
    v ∈ feature_row features' ∧
    CallPredict [feature_row features']
      ∈ (app lib mdl (PostPredict (JObj (<[name := JFloat v]> d)))).2 ∧
    status (app lib mdl (PostPredict (JObj (<[name := JFloat v]> d)))).1
      ≠ 422 ∧
    (∀ e, (predict_wine_try lib mdl features').1 = Raises e →
          (app lib mdl (PostPredict (JObj (<[name := JFloat v]> d)))).1
          = Response 500 (JObj {[ "detail" := JStr (exn_str e) ]})).
Proof.
  intros Hvalid Hname _.
  assert (field_value lib (<[name := JFloat v]> d) name = Some v) as Hv.
  { rewrite field_value_insert. by rewrite decide_True. }
  destruct (WineFeatures_of_dict lib (<[name := JFloat v]> d))
    as [features'|] eqn:Hd'.
  2:{ apply WineFeatures_of_dict_None_inv in Hd' as (name' & Hin & Hnone).
      rewrite field_value_insert in Hnone. case_decide; [done|].
      simpl in Hvalid.
      by rewrite (WineFeatures_of_dict_None d name') in Hvalid. }
  assert (WineFeatures_validate lib (JObj (<[name := JFloat v]> d))
          = inr features') as Hvalid' by (simpl; by rewrite Hd').
  exists features'. split; [done|]. split; [done|]. split.
  { apply WineFeatures_of_dict_Some in Hd'.
    assert (Some v ∈ Some <$> feature_row features') as Hin.
    { rewrite <- Hd', <- Hv. by apply list_elem_of_fmap_2. }
    apply list_elem_of_fmap in Hin as (w & [= ->] & Hin). done. }
  unfold app. rewrite Hvalid', respond_predict_wine.
  destruct (predict_wine_try_trace mdl features') as (rest & Hrest & _).
  destruct (predict_wine_try lib mdl features').1 as [result|e'] eqn:Htry;
    cbn [fst snd status]; rewrite Hrest.
  - split; [set_solver|]. split; [done|]. done.
  - split; [set_solver|]. split; [done|]. by intros e [= ->].
Qed.

End Properties.

(** * The embedding at work *)

Import Fixture.

Example sample_is_valid :
  WineFeatures_validate (libs stump) (JObj sample) = inr sample_features.
Proof. vm_compute. reflexivity. Qed.

Example sample_is_class_0 :
  app (libs stump) stump (PostPredict (JObj sample)) =
    (Response 200 sample_result,
     [ LogInfo (Recibiendo sample_features);
       CallPredict [feature_row sample_features];
       CallPredictProba [feature_row sample_features];
       LogInfo (Exitosa sample_result) ]).
Proof. vm_compute. reflexivity. Qed.

Example text_alcohol_is_refused :
  (app (libs stump) stump
       (PostPredict (JObj (<[ "alcohol" := JStr "high" ]> sample)))).1 =
    Response 422 (JObj {[ "detail" :=
                            JArr [JArr [JStr "body"; JStr "alcohol"]] ]}).
Proof. vm_compute. reflexivity. Qed.

Example list_body_is_refused :
  app (libs stump) stump (PostPredict (JArr [JFloat 14.23])) =
    (Response 422 (JObj {[ "detail" :=
                             JArr [JArr [JStr "body"; JStr "body"]] ]}), []).
Proof. vm_compute. reflexivity. Qed.

Example infinite_proline_is_a_server_error :
  (app (libs stump) stump
       (PostPredict
          (JObj (<[ "proline" := JFloat PrimFloat.infinity ]> sample)))).1 =
    Response 500 (JObj {[ "detail" := JStr (exn_str not_finite) ]}).
Proof. vm_compute. reflexivity. Qed.

Example restart_gives_same_answer :
  (serve random_libs
         (run random_libs (startup random_libs 6)
              [GetHealth; PostPredict (JObj hue_nan); PostPredict JNull])
         (PostPredict (JObj sample))).1 =
  (serve random_libs (startup random_libs 7) (PostPredict (JObj sample))).1.
Proof. vm_compute. reflexivity. Qed.

Example unseeded_fit_depends_on_generator :
  predict (random_fit 100 None 6 [] []) [feature_row sample_features]
  ≠ predict (random_fit 100 None 7 [] []) [feature_row sample_features].
Proof. vm_compute. discriminate. Qed.

(** ** The theorems at concrete requests *)

Lemma predict_returns_label_and_probabilities_witness :
  ∃ p0 p1 p2,
    [0.97; 0.03; 0]%float = [p0; p1; p2] ∧
    (app (libs stump) stump (PostPredict (JObj sample))).1 =
      Response 200
        (JObj {[ "prediction" := JInt 0;
                 "probabilities" :=
                   JObj {[ "clase_0" := JFloat p0; "clase_1" := JFloat p1;
                           "clase_2" := JFloat p2 ]};
                 "message" :=
                   JStr ("Vino clasificado como: Clase " +:+ pretty 0) ]}) ∧
    0 ∈ [0; 1; 2] ∧
    in_unit p0 = true ∧ in_unit p1 = true ∧ in_unit p2 = true ∧
    sums_to_one [p0; p1; p2] = true.
Proof.
  apply (predict_returns_label_and_probabilities
           (libs stump) stump (JObj sample) sample_features 0
           [0.97; 0.03; 0]%float).
  - vm_compute. reflexivity.
  - repeat split.
    + apply list_elem_of_here.
    + repeat constructor.
Defined.

Lemma invalid_body_is_rejected_before_handler_witness :
  ∃ errors,
    WineFeatures_validate (libs stump) (JObj (delete "proline" sample))
      = inl errors ∧
    app (libs stump) stump (PostPredict (JObj (delete "proline" sample))) =
      (Response 422 (JObj {[ "detail" := detail_of errors ]}), []).
Proof.
  apply (invalid_body_is_rejected_before_handler
           (libs stump) stump (JObj (delete "proline" sample)) "proline").
  - vm_compute. repeat constructor.
  - left. vm_compute. reflexivity.
Defined.

Lemma exception_becomes_500_witness :
  app (libs stump) stump (PostPredict (JObj hue_nan)) =
    (Response 500 (JObj {[ "detail" := JStr (exn_str not_finite) ]}),
     (predict_wine_try (libs stump) stump hue_nan_features).2
     ++ [LogError (ErrorDurante (exn_str not_finite))]) ∧
  predict_wine (libs stump) stump hue_nan_features =
    (Raises (mkHTTPException 500 (exn_str not_finite)),
     (predict_wine_try (libs stump) stump hue_nan_features).2
     ++ [LogError (ErrorDurante (exn_str not_finite))]) ∧
  NoDup (filter (λ ev, is_model_call ev = true)
                (app (libs stump) stump (PostPredict (JObj hue_nan))).2).
Proof.
  apply (exception_becomes_500
           (libs stump) stump (JObj hue_nan) hue_nan_features not_finite).
  - vm_compute. reflexivity.
  - vm_compute. reflexivity.
Defined.

Lemma model_input_is_in_training_order_witness :
  field_value (libs stump) sample <$> required_fields
    = Some <$> feature_row sample_features ∧
  (∃ rest,
     (app (libs stump) stump (PostPredict (JObj sample))).2 =
       LogInfo (Recibiendo sample_features)
       :: CallPredict [feature_row sample_features]
       :: CallPredictProba [feature_row sample_features] :: rest).
Proof.
  pose proof (model_input_is_in_training_order
                (libs stump) stump sample sample_features) as H.
  destruct H as (_ & Hrow & _ & _ & Hproba).
  - vm_compute. reflexivity.
  - split; [exact Hrow|]. apply (Hproba 0 []). vm_compute. reflexivity.
Defined.

Lemma message_names_predicted_class_witness :
  ∃ features k ks label message,
    WineFeatures_validate (libs stump) (JObj sample) = inr features ∧
    predict stump [feature_row features] = inr (k :: ks) ∧
    json_get (content (app (libs stump) stump
                           (PostPredict (JObj sample))).1) "prediction"
      = Some (JInt k) ∧
    json_get (content (app (libs stump) stump
                           (PostPredict (JObj sample))).1) "message"
      = Some (JStr message) ∧
    wine_types !! k = Some label ∧
    label = "Clase " +:+ pretty k ∧
    message = "Vino clasificado como: " +:+ label ∧
    (k = 0 → message = "Vino clasificado como: Clase 0" ∧
             mentions message "Clase 0").
Proof.
  apply (message_names_predicted_class (libs stump) stump (JObj sample)).
  vm_compute. reflexivity.
Defined.

Lemma same_seed_same_answer_witness :
  (serve random_libs
         (run random_libs (startup random_libs 6)
              [GetHealth; PostPredict (JObj hue_nan)])
         (PostPredict (JObj sample))).1 =
  (serve random_libs (run random_libs (startup random_libs 7) [])
         (PostPredict (JObj sample))).1.
Proof.
  apply (same_seed_same_answer random_libs 6 7
           [GetHealth; PostPredict (JObj hue_nan)] [] (JObj sample)).
  split.
  - intros X y size seed g g'. reflexivity.
  - intros n seed g g' X y X0. split; reflexivity.
Defined.

Lemma handler_is_total_witness :
  (predict_wine_try (libs rogue) rogue sample_features).1
    = Raises (Exn "KeyError" "7") ∧
  (app (libs rogue) rogue (PostPredict (JObj sample))).1
    = Response 500 (JObj {[ "detail" := JStr "7" ]}).
Proof.
  pose proof (handler_is_total
                (libs rogue) rogue (JObj sample) sample_features) as H.
  destruct H as (_ & _ & Hkey).
  - vm_compute. reflexivity.
  - apply (Hkey 7 [] [0.97; 0.03; 0]%float []).
    + vm_compute. reflexivity.
    + vm_compute. reflexivity.
    + rewrite !elem_of_cons, elem_of_nil. intros [|[|[|[]]]]; discriminate.
Defined.

Lemma extra_fields_are_ignored_witness :
  WineFeatures_validate (libs stump) (JObj with_vintage)
    = inr sample_features ∧
  app (libs stump) stump (PostPredict (JObj with_vintage))
    = app (libs stump) stump (PostPredict (JObj sample)).
Proof.
  apply (extra_fields_are_ignored
           (libs stump) stump sample with_vintage sample_features).
  - vm_compute. reflexivity.
  - apply insert_subseteq. vm_compute. reflexivity.
Defined.

Lemma non_finite_value_reaches_model_witness :
  ∃ features',
    WineFeatures_validate (libs stump) (JObj hue_nan) = inr features' ∧
    field_value (libs stump) hue_nan "hue" = Some PrimFloat.nan ∧
    PrimFloat.nan ∈ feature_row features' ∧
    CallPredict [feature_row features']
      ∈ (app (libs stump) stump (PostPredict (JObj hue_nan))).2 ∧
    status (app (libs stump) stump (PostPredict (JObj hue_nan))).1 ≠ 422 ∧
    (∀ e, (predict_wine_try (libs stump) stump features').1 = Raises e →
          (app (libs stump) stump (PostPredict (JObj hue_nan))).1
          = Response 500 (JObj {[ "detail" := JStr (exn_str e) ]})).
Proof.
  apply (non_finite_value_reaches_model
           (libs stump) stump sample sample_features "hue" PrimFloat.nan).
  - vm_compute. reflexivity.
  - vm_compute. repeat constructor.
  - vm_compute. reflexivity.
Defined.

(** ** A valid body that gets no prediction *)

(** C1 as stated, for every valid body, fails: validation checks types
    only, so a body whose [proline] is 1e300 is valid; a model that
    refuses what does not fit [float32], as a forest's input check does,
    raises on it, and the response is 500 with the text of the error, not
    a prediction. *)
Lemma valid_body_without_prediction :
  WineFeatures_validate (libs stump) (JObj huge) = inr huge_features ∧
  (app (libs stump) stump (PostPredict (JObj huge))).1 =
    Response 500 (JObj {[ "detail" := JStr (exn_str not_finite) ]}) ∧
  ¬ ∃ k p0 p1 p2 message,
      (app (libs stump) stump (PostPredict (JObj huge))).1 =
        Response 200
          (JObj {[ "prediction" := JInt k;
                   "probabilities" :=
                     JObj {[ "clase_0" := JFloat p0; "clase_1" := JFloat p1;
                             "clase_2" := JFloat p2 ]};
                   "message" := JStr message ]}) ∧
      k ∈ [0; 1; 2] ∧
      in_unit p0 = true ∧ in_unit p1 = true ∧ in_unit p2 = true ∧
      sums_to_one [p0; p1; p2] = true.
Proof.
  assert ((app (libs stump) stump (PostPredict (JObj huge))).1 =
          Response 500 (JObj {[ "detail" := JStr (exn_str not_finite) ]}))
    as Hresp by (vm_compute; reflexivity).
  split; [vm_compute; reflexivity|]. split; [exact Hresp|].
  intros (k & p0 & p1 & p2 & message & H & _).
  rewrite Hresp in H. discriminate H.
Qed.

(** * Further properties of the handlers *)

(** ** The dict comprehension of line 63 *)

Lemma class_key_inj i j : class_key i = class_key j → i = j.
Proof.
  unfold class_key. simpl. intros [= H]. exact (pretty_nat_inj _ _ H).
Qed.

Lemma probabilities_dict_from (acc : gmap string json) n ps i :
  foldl (λ d '(i, prob), <[ "clase_" +:+ pretty i := JFloat prob ]> d)
        acc (zip (seq n (length ps)) ps) !! class_key i =
  if decide (n ≤ i < n + length ps)%nat
  then JFloat <$> ps !! (i - n)%nat
  else acc !! class_key i.
Proof.
  revert acc n. induction ps as [|p ps IH]; intros acc n.
  - simpl. case_decide; [lia|done].
  - cbn [length seq zip zip_with foldl]. rewrite IH.
    change ("clase_" +:+ pretty n) with (class_key n).
    destruct (decide (i = n)) as [->|Hne].
    + rewrite decide_False, decide_True by (simpl; lia).
      rewrite lookup_insert_eq. by rewrite Nat.sub_diag.
    + rewrite lookup_insert_ne by (intros H; by apply class_key_inj in H).
      repeat case_decide; try (simpl in *; lia); [|done].
      by replace (i - n)%nat with (S (i - S n)) by lia.
Qed.

Lemma probabilities_dict_size_from (acc : gmap string json) n ps :
  (∀ j, (n ≤ j)%nat → acc !! class_key j = None) →
  size (foldl (λ d '(i, prob), <[ "clase_" +:+ pretty i := JFloat prob ]> d)
              acc (zip (seq n (length ps)) ps))
  = (size acc + length ps)%nat.
Proof.
  revert acc n. induction ps as [|p ps IH]; intros acc n Hfree.
  - simpl. lia.
  - cbn [length seq zip zip_with foldl]. rewrite IH.
    + change ("clase_" +:+ pretty n) with (class_key n).
      rewrite map_size_insert_None by (apply Hfree; lia). lia.
    + intros j Hj. change ("clase_" +:+ pretty n) with (class_key n).
      rewrite lookup_insert_ne by (intros H; apply class_key_inj in H; lia).
      apply Hfree. lia.
Qed.

(** X1: in the [probabilities] dict the key clase_i holds the i-th
    probability the model returned, unchanged, for every i below their
    number, and is absent for every other i. *)
Theorem probabilities_dict_lookup (ps : list float) (i : nat) :
  probabilities_dict ps !! class_key i = JFloat <$> ps !! i.
Proof.
  unfold probabilities_dict. rewrite probabilities_dict_from.
  rewrite Nat.sub_0_r. case_decide as Hi; [done|].
  rewrite lookup_empty. symmetry.
  rewrite (proj2 (lookup_ge_None ps i)); [done|lia].
Qed.

(** X2: the [probabilities] dict has exactly one entry per probability:
    no two classes share a key, whatever their number. *)
Theorem probabilities_dict_size (ps : list float) :
  size (probabilities_dict ps) = length ps.
Proof.
  unfold probabilities_dict. rewrite probabilities_dict_size_from.
  - by rewrite map_size_empty.
  - intros j _. apply lookup_empty.
Qed.

Section Further.
Context (lib : libraries).

(** ** What a request to [/predict] is answered *)

Lemma app_predict_cases mdl body features :
  WineFeatures_validate lib body = inr features →
  app lib mdl (PostPredict body) =
  match (predict_wine_try lib mdl features).1 with
  | Returns result =>
      (Response 200 result, (predict_wine_try lib mdl features).2)
  | Raises e =>
      (Response 500 (JObj {[ "detail" := JStr (exn_str e) ]}),
       (predict_wine_try lib mdl features).2
       ++ [LogError (ErrorDurante (exn_str e))])
  end.
Proof. intros H. unfold app. by rewrite H, respond_predict_wine. Qed.

(** X3: a valid body is answered 200 exactly when [predict] returns a
    non-empty array whose first label is 0, 1 or 2 and [predict_proba]
    returns a non-empty array; the result then holds that label, the
    first row of probabilities, however many they are, and the message
    of that label.  Nothing else is checked: not the number of
    probabilities, not that the label is the most probable class. *)
Theorem prediction_is_returned_iff mdl body features result :
  WineFeatures_validate lib body = inr features →
  ((app lib mdl (PostPredict body)).1 = Response 200 result ↔
   ∃ k ks ps pss,
     predict mdl [feature_row features] = inr (k :: ks) ∧
     predict_proba mdl [feature_row features] = inr (ps :: pss) ∧
     k ∈ [0; 1; 2] ∧
     result = result_of k ps ("Clase " +:+ pretty k)).
Proof.
  intros Hvalid. rewrite (app_predict_cases _ _ _ Hvalid).
  rewrite predict_wine_try_cases. cbn zeta.
  destruct (predict mdl _) as [e|[|k ks]]; cbn [fst snd].
  - split; [done|]. by intros (?&?&?&?&?&_).
  - split; [done|]. by intros (?&?&?&?&?&_).
  - destruct (predict_proba mdl _) as [e|[|ps pss]]; cbn [fst snd].
    + split; [done|]. by intros (?&?&?&?&_&?&_).
    + split; [done|]. by intros (?&?&?&?&_&?&_).
    + rewrite wine_types_lookup. case_decide as Hk; cbn [fst snd].
      * split.
        -- intros [= <-]. by exists k, ks, ps, pss.
        -- intros (k' & ? & ps' & ? & [= <- _] & [= <- _] & _ & ->). done.
      * split; [done|]. intros (k' & ? & ? & ? & [= <- _] & _ & ? & _). done.
Qed.

(** X4: a rejected body leaves no event at all; a valid one leaves
    exactly two log records, the receipt of the features and then either
    the result that is returned (with 200) or the text of the error that
    is sent as [detail] (with 500). *)
Theorem handler_logs_receipt_and_outcome mdl body :
  match WineFeatures_validate lib body with
  | inl _ => (app lib mdl (PostPredict body)).2 = []
  | inr features =>
      (∃ result,
         (app lib mdl (PostPredict body)).1 = Response 200 result ∧
         log_records (app lib mdl (PostPredict body)).2 =
           [LogInfo (Recibiendo features); LogInfo (Exitosa result)]) ∨
      (∃ text,
         (app lib mdl (PostPredict body)).1 =
           Response 500 (JObj {[ "detail" := JStr text ]}) ∧
         log_records (app lib mdl (PostPredict body)).2 =
           [LogInfo (Recibiendo features); LogError (ErrorDurante text)])
  end.
Proof.
  destruct (WineFeatures_validate lib body) as [errors|features] eqn:Hvalid.
  { unfold app. by rewrite Hvalid. }
  rewrite (app_predict_cases _ _ _ Hvalid), predict_wine_try_cases.
  cbn zeta.
  destruct (predict mdl _) as [e|[|k ks]]; cbn [fst snd];
    [right; eexists; split; reflexivity..|].
  destruct (predict_proba mdl _) as [e|[|ps pss]]; cbn [fst snd];
    [right; eexists; split; reflexivity..|].
  destruct (wine_types !! k) as [label|]; cbn [fst snd].
  - left. eexists. split; reflexivity.
  - right. eexists. split; reflexivity.
Qed.

(** X5: for a valid body the model receives one row of 13 values;
    [predict] is called on it exactly once, and [predict_proba] exactly
    once after it when [predict] returned a non-empty array, and not at
    all when [predict] raised or returned an empty array. *)
Theorem model_is_called_at_most_twice mdl body features :
  WineFeatures_validate lib body = inr features →
  length (feature_row features) = 13%nat ∧
  model_calls (app lib mdl (PostPredict body)).2 =
    match predict mdl [feature_row features] with
    | inr (_ :: _) =>
        [ CallPredict [feature_row features];
          CallPredictProba [feature_row features] ]
    | _ => [ CallPredict [feature_row features] ]
    end.
Proof.
  intros Hvalid. split; [done|].
  rewrite (app_predict_cases _ _ _ Hvalid), predict_wine_try_cases.
  cbn zeta.
  destruct (predict mdl _) as [e|[|k ks]]; cbn [fst snd]; [done..|].
  destruct (predict_proba mdl _) as [e|[|ps pss]]; cbn [fst snd];
    [done..|].
  by destruct (wine_types !! k).
Qed.

(** X6: when [predict] returns an empty array, or returns a label and
    [predict_proba] returns an empty array, the indexing [[0]] fails and
    a valid body is answered 500 with the text of the [IndexError]. *)
Theorem empty_answer_is_a_server_error mdl body features :
  WineFeatures_validate lib body = inr features →
  (predict mdl [feature_row features] = inr [] ∨
   ∃ k ks, predict mdl [feature_row features] = inr (k :: ks) ∧
           predict_proba mdl [feature_row features] = inr []) →
  (app lib mdl (PostPredict body)).1 =
    Response 500 (JObj {[ "detail" := JStr (exn_str index_error) ]}).
Proof.
  intros Hvalid Hempty.
  rewrite (app_predict_cases _ _ _ Hvalid), predict_wine_try_cases.
  cbn zeta. destruct Hempty as [->|(k & ks & -> & ->)]; done.
Qed.

(** X7: every response to [POST /predict] has status 200, 422 or 500; a
    200 body has exactly the keys prediction, probabilities and message,
    and a 422 or 500 body has the key detail and no other. *)
Theorem predict_response_shape mdl body :
  (status (app lib mdl (PostPredict body)).1 = 200 ∧
   json_keys (content (app lib mdl (PostPredict body)).1) =
     {[ "prediction"; "probabilities"; "message" ]}) ∨
  ((status (app lib mdl (PostPredict body)).1 = 422 ∨
    status (app lib mdl (PostPredict body)).1 = 500) ∧
   json_keys (content (app lib mdl (PostPredict body)).1) = {[ "detail" ]}).
Proof.
  destruct (WineFeatures_validate lib body) as [errors|features] eqn:Hvalid.
  { right. unfold app. rewrite Hvalid. cbn [fst status content json_keys].
    split; [by left|]. by rewrite dom_singleton_L. }
  rewrite (app_predict_cases _ _ _ Hvalid).
  destruct (predict_wine_try lib mdl features).1 as [result|e] eqn:Htry;
    cbn [fst status content].
  - left. split; [done|].
    apply predict_wine_try_returns in Htry as (k & ps & label & _ & ->).
    unfold result_of, json_keys.
    rewrite !dom_insert_L, dom_singleton_L. set_solver.
  - right. split; [by right|]. cbn [json_keys]. by rewrite dom_singleton_L.
Qed.

(** X8: a JSON object is accepted with the features [features] exactly
    when each of the 13 schema fields, looked up by its name, validates
    to the attribute of that name: no field is required beyond these and
    none is read into another attribute. *)
Theorem body_is_accepted_iff (d : gmap string json) features :
  WineFeatures_validate lib (JObj d) = inr features ↔
  field_value lib d <$> required_fields = Some <$> feature_row features.
Proof.
  split.
  - simpl. destruct (WineFeatures_of_dict lib d) eqn:Hd; [|done].
    intros [= <-]. by apply WineFeatures_of_dict_Some.
  - destruct features. cbn [fmap list_fmap required_fields feature_row
      alcohol malic_acid ash alcalinity_of_ash magnesium total_phenols
      flavanoids nonflavanoid_phenols proanthocyanins color_intensity hue
      od280_od315_of_diluted_wines proline].
    intros [= H1 H2 H3 H4 H5 H6 H7 H8 H9 H10 H11 H12 H13].
    unfold WineFeatures_validate, WineFeatures_of_dict.
    rewrite H1, H2, H3, H4, H5, H6, H7, H8, H9, H10, H11, H12, H13.
    reflexivity.
Qed.

Lemma ok_response_inv mdl body :
  status (app lib mdl (PostPredict body)).1 = 200 →
  ∃ k ps, k ∈ [0; 1; 2] ∧
          content (app lib mdl (PostPredict body)).1
          = result_of k ps ("Clase " +:+ pretty k).
Proof.
  destruct (WineFeatures_validate lib body) as [errors|features] eqn:Hvalid.
  { unfold app. by rewrite Hvalid. }
  rewrite (app_predict_cases _ _ _ Hvalid).
  destruct (predict_wine_try lib mdl features).1 as [result|e] eqn:Htry;
    [|done].
  intros _.
  apply predict_wine_try_returns in Htry as (k & ps & label & Hk & ->).
  rewrite wine_types_lookup in Hk. case_decide; [|done].
  injection Hk as <-. by exists k, ps.
Qed.

(** X9: the message of a 200 response determines its prediction: two
    successful responses, from any models and bodies, that carry the
    same message carry the same class index. *)
Theorem message_determines_prediction mdl mdl' body body' :
  status (app lib mdl (PostPredict body)).1 = 200 →
  status (app lib mdl' (PostPredict body')).1 = 200 →
  json_get (content (app lib mdl (PostPredict body)).1) "message" =
  json_get (content (app lib mdl' (PostPredict body')).1) "message" →
  json_get (content (app lib mdl (PostPredict body)).1) "prediction" =
  json_get (content (app lib mdl' (PostPredict body')).1) "prediction".
Proof.
  intros (k & ps & Hk & ->)%ok_response_inv
         (k' & ps' & Hk' & ->)%ok_response_inv.
  unfold result_of, json_get.
  rewrite !lookup_insert_ne, !lookup_singleton_eq by done.
  rewrite !lookup_insert_eq.
  rewrite !elem_of_cons, elem_of_nil in Hk, Hk'.
  destruct Hk as [->|[->|[->|[]]]], Hk' as [->|[->|[->|[]]]];
    intros H; try reflexivity; vm_compute in H; discriminate H.
Qed.

(** X10: the [detail] of a 500 response is the text of the first failure
    in the order of the handler: the exception of [predict], else the
    [IndexError] on its empty answer, else the exception of
    [predict_proba], else the [IndexError] on its empty answer, else the
    [KeyError] on the label; so a label outside 0, 1, 2 is reported only
    if [predict_proba] has answered. *)
Theorem detail_is_first_failure mdl body features :
  WineFeatures_validate lib body = inr features →
  status (app lib mdl (PostPredict body)).1 = 500 →
  json_get (content (app lib mdl (PostPredict body)).1) "detail" =
    Some (JStr
      match predict mdl [feature_row features] with
      | inl e => exn_str e
      | inr [] => exn_str index_error
      | inr (k :: _) =>
          match predict_proba mdl [feature_row features] with
          | inl e => exn_str e
          | inr [] => exn_str index_error
          | inr (_ :: _) => repr_label lib k
          end
      end).
Proof.
  intros Hvalid.
  rewrite (app_predict_cases _ _ _ Hvalid), predict_wine_try_cases.
  cbn zeta.
  destruct (predict mdl _) as [e|[|k ks]]; cbn [fst snd]; [done..|].
  destruct (predict_proba mdl _) as [e|[|ps pss]]; cbn [fst snd];
    [done..|].
  by destruct (wine_types !! k).
Qed.

End Further.

(** ** The further properties at concrete requests *)

Example two_probabilities_are_returned :
  app (libs two_class) two_class (PostPredict (JObj sample)) =
    (Response 200 two_class_result,
     [ LogInfo (Recibiendo sample_features);
       CallPredict [feature_row sample_features];
       CallPredictProba [feature_row sample_features];
       LogInfo (Exitosa two_class_result) ]).
Proof. vm_compute. reflexivity. Qed.

Example rejected_body_is_not_logged :
  app (libs stump) stump (PostPredict (JObj (delete "hue" sample))) =
    (Response 422 (JObj {[ "detail" :=
                             JArr [JArr [JStr "body"; JStr "hue"]] ]}), []).
Proof. vm_compute. reflexivity. Qed.

Lemma prediction_is_returned_iff_witness :
  (app (libs two_class) two_class (PostPredict (JObj sample))).1
  = Response 200 two_class_result.
Proof.
  pose proof (prediction_is_returned_iff
                (libs two_class) two_class (JObj sample) sample_features
                two_class_result) as H.
  destruct H as [_ H].
  - vm_compute. reflexivity.
  - apply H. exists 1, [0], [0.25; 0.75]%float, [[1; 0]]%float.
    split; [reflexivity|]. split; [reflexivity|].
    split; [repeat constructor|]. vm_compute. reflexivity.
Defined.

Lemma model_is_called_at_most_twice_witness :
  length (feature_row sample_features) = 13%nat ∧
  model_calls (app (libs mute) mute (PostPredict (JObj sample))).2 =
    match predict mute [feature_row sample_features] with
    | inr (_ :: _) =>
        [ CallPredict [feature_row sample_features];
          CallPredictProba [feature_row sample_features] ]
    | _ => [ CallPredict [feature_row sample_features] ]
    end.
Proof.
  apply (model_is_called_at_most_twice
           (libs mute) mute (JObj sample) sample_features).
  vm_compute. reflexivity.
Defined.

Lemma empty_answer_is_a_server_error_witness :
  (app (libs mute) mute (PostPredict (JObj sample))).1 =
    Response 500 (JObj {[ "detail" := JStr (exn_str index_error) ]}).
Proof.
  apply (empty_answer_is_a_server_error
           (libs mute) mute (JObj sample) sample_features).
  - vm_compute. reflexivity.
  - left. reflexivity.
Defined.

Lemma message_determines_prediction_witness :
  json_get (content (app (libs stump) stump
                         (PostPredict (JObj sample))).1) "prediction" =
  json_get (content (app (libs stump) stump
                         (PostPredict (JObj with_vintage))).1) "prediction".
Proof.
  apply (message_determines_prediction
           (libs stump) stump stump (JObj sample) (JObj with_vintage)).
  - vm_compute. reflexivity.
  - vm_compute. reflexivity.
  - vm_compute. reflexivity.
Defined.

Lemma detail_is_first_failure_witness :
  json_get (content (app (libs rogue) rogue (PostPredict (JObj huge))).1)
           "detail"
  = Some (JStr (exn_str not_finite)).
Proof.
  apply (detail_is_first_failure
           (libs rogue) rogue (JObj huge) huge_features).
  - vm_compute. reflexivity.
  - vm_compute. reflexivity.
Defined.
